(** * zubax_serial_updater: the cx_Freeze build descriptor [setup.py]

    The descriptor is a straight-line Python module: it picks the
    executable's subsystem from [sys.platform], globs the working
    directory for firmware images, refuses to go on when there are none,
    and hands three literal records to [cx_Freeze.setup].

    The embedding below keeps that shape.  Python values are a small
    inductive type whose dictionaries are finite maps; module-level
    statements run in a monad that reads the host (platform and
    filesystem answers), may raise, and logs the calls made into the
    packaging tool. *)

From Stdlib Require Import Ascii String.
From stdpp Require Import gmap strings list fin_maps.

#[local] Set Warnings "-register-all".

(** ** Python values *)

(** The values the descriptor builds: [None], [True]/[False], [str],
    [list], [dict] with string keys, and an object built by a
    constructor call, with positional and keyword arguments, of a class
    that lives in another package (here only [cx_Freeze.Executable]). *)
Inductive value : Type :=
  | VNone
  | VBool (b : bool)
  | VStr (s : string)
  | VList (xs : list value)
  | VDict (d : gmap string value)
  | VObject (cls : string) (args : list value) (kwargs : gmap string value).

(** A Python [list] of [str], as [glob.glob] returns it. *)
Definition str_list (names : list string) : value := VList (VStr <$> names).

(** Reading values back; each projection is [None] on a value of another
    shape. *)
Definition as_str (v : value) : option string :=
  match v with VStr s => Some s | _ => None end.

Definition as_list (v : value) : option (list value) :=
  match v with VList xs => Some xs | _ => None end.

Definition as_dict (v : value) : option (gmap string value) :=
  match v with VDict d => Some d | _ => None end.

Definition as_strs (v : value) : option (list string) :=
  xs ← as_list v; mapM as_str xs.

(** [item k v] is the subscription [v[k]] on a dictionary. *)
Definition item (k : string) (v : value) : option value :=
  d ← as_dict v; d !! k.

(** ** The host *)

(** What the descriptor reads from outside: the interpreter's
    [sys.platform], and the answer of the standard library's
    [glob.glob] for a pattern, evaluated in the working directory. *)
Record world : Type := World {
  sys_platform : string;
  glob_glob : string → list string
}.

(** ** Effects *)

(** [raise Exception(msg)]. *)
Inductive exn : Type :=
  | Exception (msg : string).

(** The functions of the packaging tool that a name [setup] can be bound
    to.  Line 8 imports [distutils.core.setup]; line 9 imports
    [cx_Freeze.setup] under the same name, so the later binding is the
    one the call on line 27 resolves to. *)
Inductive callee : Type :=
  | distutils_core_setup
  | cx_Freeze_setup.

Definition setup : callee := cx_Freeze_setup.

(** A call into the packaging tool with its keyword arguments. *)
Inductive call : Type :=
  | Call (f : callee) (kwargs : gmap string value).

Inductive result (A : Type) : Type :=
  | Returned (a : A)
  | Raised (e : exn).
Arguments Returned {A} a.
Arguments Raised {A} e.

(** A module-level computation: it reads the host, extends the log of
    calls made so far, and either returns or raises. *)
Definition script (A : Type) : Type :=
  world → list call → result A * list call.

#[export] Instance script_ret : MRet script :=
  λ A a _ log, (Returned a, log).

#[export] Instance script_bind : MBind script :=
  λ A B k m w log,
    match m w log with
    | (Returned a, log') => k a w log'
    | (Raised e, log') => (Raised e, log')
    end.

Definition raise {A : Type} (e : exn) : script A :=
  λ _ log, (Raised e, log).

Definition read_sys_platform : script string :=
  λ w log, (Returned (sys_platform w), log).

Definition glob (pattern : string) : script (list string) :=
  λ w log, (Returned (glob_glob w pattern), log).

Definition invoke (f : callee) (kwargs : gmap string value) : script unit :=
  λ _ log, (Returned (), log ++ [Call f kwargs]).

(** ** The descriptor *)

(** Line 11: [base = 'Win32GUI' if sys.platform == 'win32' else None]. *)
Definition base (platform : string) : value :=
  if String.eqb platform "win32" then VStr "Win32GUI" else VNone.

(** Lines 17-21. *)
Definition build_exe_options (binaries : list string) : gmap string value :=
  {[ "packages" := VList [VStr "serial"; VStr "tkinter"];
     "include_msvcr" := VBool true;
     "include_files" := str_list binaries ]}.

(** Lines 23-25; the path is a raw string, its backslashes are literal. *)
Definition bdist_msi_options : gmap string value :=
  {[ "initial_target_dir" := VStr "[ProgramFilesFolder]\Zubax\serial_updater" ]}.

(** [cx_Freeze.Executable(script, **kwargs)]: the class is the packaging
    tool's, so an instance is kept as the constructor call that made it. *)
Definition Executable (script : value) (kwargs : gmap string value) : value :=
  VObject "Executable" [script] kwargs.

(** Lines 28-44: the keyword arguments of the [setup] call. *)
Definition setup_kwargs (base : value) (binaries : list string)
    : gmap string value :=
  {[ "name" := VStr "zubax_serial_updater";
     "version" := VStr "1.0";
     "description" := VStr "Zubax serial firmware updater";
     "requires" := VList [VStr "serial"];
     "author" := VStr "Pavel Kirienko";
     "author_email" := VStr "pavel.kirienko@zubax.com";
     "url" := VStr "http://zubax.com";
     "license" := VStr "MIT";
     "options" := VDict {[ "build_exe" := VDict (build_exe_options binaries);
                           "bdist_msi" := VDict bdist_msi_options ]};
     "executables" :=
       VList [Executable (VStr "zubax_serial_updater")
                {[ "base" := base;
                   "icon" := VStr "icon.ico";
                   "shortcutName" := VStr "Zubax Serial Updater";
                   "shortcutDir" := VStr "ProgramMenuFolder" ]}] ]}.

(** The module body, statement by statement.  The imports of lines 6-9
    are taken to resolve: a host without the packaging tool is outside
    the descriptor. *)
Definition main : script unit :=
  platform ← read_sys_platform;
  let base := base platform in
  binaries ← glob "*.bin";
  (if length binaries =? 0
   then raise (Exception "Could not find binaries")
   else mret ());;
  invoke setup (setup_kwargs base binaries).

(** Running the descriptor on a host, from an empty log. *)
Definition run (w : world) : result unit * list call := main w [].

(** ** A POSIX working directory as a host *)

(** The standard library's [glob.glob], for a pattern without a
    directory part, lists the working directory, drops the names that
    start with a dot unless the pattern does, and keeps the names that
    [fnmatch] accepts, in listing order.  On a POSIX host names are
    compared as they are.  The matcher covers the wildcards [*] and [?]
    and literal characters; bracket classes do not occur in the
    descriptor's pattern and are read as literals here. *)
Module posix.

Fixpoint fnmatch (pat : string) : string → bool :=
  match pat with
  | EmptyString => λ name, bool_decide (name = EmptyString)
  | String "*"%char pat' =>
      fix star (name : string) : bool :=
        fnmatch pat' name ||
        match name with
        | EmptyString => false
        | String _ name' => star name'
        end
  | String "?"%char pat' => λ name,
      match name with
      | EmptyString => false
      | String _ name' => fnmatch pat' name'
      end
  | String c pat' => λ name,
      match name with
      | EmptyString => false
      | String d name' => bool_decide (c = d) && fnmatch pat' name'
      end
  end.

Definition ishidden (path : string) : bool :=
  match path with
  | String "."%char _ => true
  | _ => false
  end.

Definition glob1 (names : list string) (pattern : string) : list string :=
  let names :=
    if ishidden pattern then names
    else List.filter (λ x, negb (ishidden x)) names in
  List.filter (fnmatch pattern) names.

(** The host whose working directory lists [names]. *)
Definition host (platform : string) (names : list string) : world :=
  World platform (glob1 names).

End posix.

(** ** What reached the packaging tool *)

(** Projections of the keyword arguments of a [setup] call, following
    the nesting [options] / [build_exe] or [bdist_msi] / key. *)
Definition passed_build_exe (kwargs : gmap string value) : option value :=
  options ← kwargs !! "options"; item "build_exe" options.

Definition passed_bdist_msi (kwargs : gmap string value) : option value :=
  options ← kwargs !! "options"; item "bdist_msi" options.

Definition passed_include_files (kwargs : gmap string value)
    : option (list string) :=
  build_exe ← passed_build_exe kwargs;
  files ← item "include_files" build_exe;
  as_strs files.

Definition passed_packages (kwargs : gmap string value)
    : option (list string) :=
  build_exe ← passed_build_exe kwargs;
  packages ← item "packages" build_exe;
  as_strs packages.

Definition passed_requires (kwargs : gmap string value)
    : option (list string) :=
  requires ← kwargs !! "requires"; as_strs requires.

(** The keyword arguments of the calls to [setup] in a log. *)
Definition setup_calls (log : list call) : list (gmap string value) :=
  omap (λ c, match c with
             | Call cx_Freeze_setup kwargs => Some kwargs
             | Call distutils_core_setup _ => None
             end) log.

(** ** Sample hosts *)

(** A checkout on a POSIX machine before any firmware image was built. *)
Definition bare_checkout : world :=
  posix.host "linux" ["icon.ico"; "setup.py"; "zubax_serial_updater"; ".git"].

(** The same checkout with one image next to the descriptor. *)
Definition one_image_checkout : world :=
  posix.host "linux"
    ["icon.ico"; "firmware_v1.bin"; "setup.py"; "zubax_serial_updater"].

(** A Windows build machine on which the glob finds two images, and the
    arguments its run passes to [setup]. *)
Definition windows_build : world :=
  World "win32"
    (λ pattern, if String.eqb pattern "*.bin"
                then ["com.zubax.gnss-1.0.bin"; "com.zubax.babel-1.1.bin"]
                else []).

Definition kwargs_sample : gmap string value :=
  setup_kwargs (VStr "Win32GUI")
    ["com.zubax.gnss-1.0.bin"; "com.zubax.babel-1.1.bin"].

(** ** The imports *)






(** A host that differs from [windows_build] only in what it answers to
    patterns the descriptor never asks about. *)
Definition windows_build_busy : world :=
  World "win32"
    (λ pattern, if String.eqb pattern "*.bin"
                then ["com.zubax.gnss-1.0.bin"; "com.zubax.babel-1.1.bin"]
                else ["icon.ico"; "zubax_serial_updater"]).

(** A POSIX host on which the glob finds the same two images. *)
Definition linux_build : world :=
  World "linux"
    (λ pattern, if String.eqb pattern "*.bin"
                then ["com.zubax.gnss-1.0.bin"; "com.zubax.babel-1.1.bin"]
                else []).

(** * Properties *)

(** ** Values *)

Lemma mapM_as_str_VStr (names : list string) :
  mapM as_str (VStr <$> names) = Some names.
Proof.
  induction names as [|n names IH]; [done|].
  cbn. by rewrite IH.
Qed.

Lemma as_strs_str_list (names : list string) :
  as_strs (str_list names) = Some names.
Proof. unfold as_strs, str_list. cbn. apply mapM_as_str_VStr. Qed.

(** ** The glob on a POSIX directory *)

Example posix_glob_sample :
  posix.glob1 ["icon.ico"; "fw_a.bin"; ".cache.bin"; "notes.bin.txt";
               "setup.py"; "fw_b.bin"; ".bin"; "bin"; "FW_C.BIN"] "*.bin"
  = ["fw_a.bin"; "fw_b.bin"].
Proof. reflexivity. Qed.

Lemma fnmatch_literal_bin (name : string) :
  posix.fnmatch ".bin" name = true ↔ name = ".bin".
Proof.
  split; [|by intros ->].
  destruct name as [|c0 [|c1 [|c2 [|c3 [|c4 rest]]]]]; cbn; try done.
  all: rewrite ?andb_true_iff, ?bool_decide_eq_true.
  all: by intros (<- & ?); destruct_and?; subst.
Qed.

(** [*.bin] accepts exactly the names that end in [.bin]. *)
Lemma fnmatch_star_bin (name : string) :
  posix.fnmatch "*.bin" name = true ↔ ∃ stem, name = stem +:+ ".bin".
Proof.
  induction name as [|c name IH].
  - cbn. split; [done|]. intros [[|? ?] ?]; done.
  - change (posix.fnmatch "*.bin" (String c name))
      with (posix.fnmatch ".bin" (String c name)
            || posix.fnmatch "*.bin" name).
    rewrite orb_true_iff, fnmatch_literal_bin, IH. split.
    + intros [Heq | [stem ->]].
      * exists EmptyString. done.
      * exists (String c stem). done.
    + intros [[|d stem] Heq]; cbn in Heq.
      * by left.
      * right. exists stem. by injection Heq.
Qed.

Lemma elem_of_glob1_bin (names : list string) (x : string) :
  x ∈ posix.glob1 names "*.bin"
  ↔ x ∈ names ∧ posix.ishidden x = false ∧ ∃ stem, x = stem +:+ ".bin".
Proof.
  unfold posix.glob1. cbn [posix.ishidden].
  rewrite !list_elem_of_In, !filter_In, negb_true_iff, fnmatch_star_bin.
  tauto.
Qed.

Lemma NoDup_glob1 (names : list string) (pattern : string) :
  NoDup names → NoDup (posix.glob1 names pattern).
Proof.
  rewrite !NoDup_ListNoDup. intros H. unfold posix.glob1.
  destruct (posix.ishidden pattern); by repeat apply List.NoDup_filter.
Qed.

(** ** The records *)

Lemma build_exe_options_keys (binaries : list string) :
  dom (build_exe_options binaries)
  = {[ "packages"; "include_msvcr"; "include_files" ]}.
Proof.
  unfold build_exe_options.
  rewrite !dom_insert_L, dom_singleton_L. set_solver.
Qed.

Lemma passed_build_exe_kwargs (b : value) (binaries : list string) :
  passed_build_exe (setup_kwargs b binaries)
  = Some (VDict (build_exe_options binaries)).
Proof. reflexivity. Qed.

Lemma passed_bdist_msi_kwargs (b : value) (binaries : list string) :
  passed_bdist_msi (setup_kwargs b binaries) = Some (VDict bdist_msi_options).
Proof. reflexivity. Qed.

Lemma passed_include_files_kwargs (b : value) (binaries : list string) :
  passed_include_files (setup_kwargs b binaries) = Some binaries.
Proof.
  unfold passed_include_files. rewrite passed_build_exe_kwargs.
  cbn. apply mapM_as_str_VStr.
Qed.

Lemma passed_packages_kwargs (b : value) (binaries : list string) :
  passed_packages (setup_kwargs b binaries) = Some ["serial"; "tkinter"].
Proof. reflexivity. Qed.

Lemma passed_requires_kwargs (b : value) (binaries : list string) :
  passed_requires (setup_kwargs b binaries) = Some ["serial"].
Proof. reflexivity. Qed.

(** ** Running the descriptor *)

(** The two ways a run can end. *)
Lemma run_empty (w : world) :
  glob_glob w "*.bin" = [] →
  run w = (Raised (Exception "Could not find binaries"), []).
Proof.
  unfold run, main. intros H.
  cbv [mbind script_bind read_sys_platform glob]. by rewrite H.
Qed.

Lemma run_nonempty (w : world) :
  glob_glob w "*.bin" ≠ [] →
  run w = (Returned (),
           [Call setup (setup_kwargs (base (sys_platform w))
                                     (glob_glob w "*.bin"))]).
Proof.
  unfold run, main. intros H.
  cbv [mbind script_bind read_sys_platform glob].
  destruct (glob_glob w "*.bin") as [|f fs]; [done|]. reflexivity.
Qed.

Lemma setup_calls_run (w : world) (kwargs : gmap string value) :
  kwargs ∈ setup_calls (run w).2 →
  glob_glob w "*.bin" ≠ [] ∧
  kwargs = setup_kwargs (base (sys_platform w)) (glob_glob w "*.bin").
Proof.
  destruct (decide (glob_glob w "*.bin" = [])) as [He|Hne].
  - rewrite (run_empty w He). cbn. by intros ?%elem_of_nil.
  - rewrite (run_nonempty w Hne). cbn. by intros ->%list_elem_of_singleton.
Qed.

(** On a POSIX directory whose listing names each entry once, what a run
    passes on as [include_files] is duplicate-free and consists of the
    visible entries ending in [.bin]. *)
Lemma posix_passed_files (platform : string) (names : list string)
    (kwargs : gmap string value) :
  NoDup names →
  kwargs ∈ setup_calls (run (posix.host platform names)).2 →
  ∃ files,
    passed_include_files kwargs = Some files ∧
    files ≠ [] ∧
    NoDup files ∧
    ∀ x, x ∈ files
         ↔ x ∈ names ∧ posix.ishidden x = false ∧ ∃ stem, x = stem +:+ ".bin".
Proof.
  intros Hnames [Hne ->]%setup_calls_run.
  change (glob_glob (posix.host platform names)) with (posix.glob1 names) in *.
  exists (posix.glob1 names "*.bin").
  rewrite passed_include_files_kwargs.
  split; [done|]. split; [done|].
  split; [by apply NoDup_glob1 | apply elem_of_glob1_bin].
Qed.

(** ** Specification of the descriptor *)

(** C1. When the glob for [*.bin] matches no file, the run ends in the
    exception ['Could not find binaries'] and its log of calls into the
    packaging tool is empty: [setup] was never reached.  Read the other
    way round, whatever reaches [setup] carries a non-empty list of
    binaries, namely the glob's answer. *)
Theorem no_binaries_aborts_before_setup (w : world) :
  (glob_glob w "*.bin" = [] →
   run w = (Raised (Exception "Could not find binaries"), [])) ∧
  (∀ kwargs, kwargs ∈ setup_calls (run w).2 →
   ∃ files, passed_include_files kwargs = Some files ∧
            files ≠ [] ∧ files = glob_glob w "*.bin").
Proof.
  split; [apply run_empty|].
  intros kwargs [Hne ->]%setup_calls_run.
  exists (glob_glob w "*.bin").
  by rewrite passed_include_files_kwargs.
Qed.

Lemma no_binaries_aborts_before_setup_witness :
  (glob_glob bare_checkout "*.bin" = [] ∧
   run bare_checkout = (Raised (Exception "Could not find binaries"), [])) ∧
  (setup_kwargs VNone ["firmware_v1.bin"]
     ∈ setup_calls (run one_image_checkout).2 ∧
   ∃ files,
     passed_include_files (setup_kwargs VNone ["firmware_v1.bin"]) = Some files ∧
     files ≠ [] ∧ files = glob_glob one_image_checkout "*.bin").
Proof.
  split; split.
  - reflexivity.
  - apply (proj1 (no_binaries_aborts_before_setup bare_checkout)).
    reflexivity.
  - apply list_elem_of_here.
  - apply (proj2 (no_binaries_aborts_before_setup one_image_checkout)).
    apply list_elem_of_here.
Defined.

(** C2. When the glob for [*.bin] matches at least one file, the run
    calls [setup] once, and the [include_files] entry of the build
    options it passes is the glob's answer itself: the same names, each
    as often as the glob gave it, and nothing else. *)
Theorem include_files_are_glob_matches (w : world)
    (Hmatch : glob_glob w "*.bin" ≠ []) :
  ∃ kwargs files,
    run w = (Returned (), [Call setup kwargs]) ∧
    passed_build_exe kwargs
      = Some (VDict (build_exe_options (glob_glob w "*.bin"))) ∧
    build_exe_options (glob_glob w "*.bin") !! "include_files"
      = Some (str_list files) ∧
    passed_include_files kwargs = Some files ∧
    files = glob_glob w "*.bin" ∧
    (∀ f, f ∈ files ↔ f ∈ glob_glob w "*.bin") ∧
    (NoDup (glob_glob w "*.bin") → NoDup files).
Proof.
  eexists _, (glob_glob w "*.bin").
  split; [by apply run_nonempty|].
  rewrite passed_build_exe_kwargs, passed_include_files_kwargs.
  by repeat split.
Qed.

Lemma include_files_are_glob_matches_witness :
  glob_glob windows_build "*.bin" ≠ [] ∧
  ∃ kwargs files,
    run windows_build = (Returned (), [Call setup kwargs]) ∧
    passed_build_exe kwargs
      = Some (VDict (build_exe_options (glob_glob windows_build "*.bin"))) ∧
    build_exe_options (glob_glob windows_build "*.bin") !! "include_files"
      = Some (str_list files) ∧
    passed_include_files kwargs = Some files ∧
    files = glob_glob windows_build "*.bin" ∧
    (∀ f, f ∈ files ↔ f ∈ glob_glob windows_build "*.bin") ∧
    (NoDup (glob_glob windows_build "*.bin") → NoDup files).
Proof.
  split; [vm_compute; discriminate|].
  apply (include_files_are_glob_matches windows_build).
  vm_compute; discriminate.
Defined.

(** C3. The subsystem tag is a function of the platform identifier
    alone: ['Win32GUI'] for ['win32'], [None] for every other
    identifier. *)
Theorem base_selects_subsystem (platform : string) :
  (platform = "win32" → base platform = VStr "Win32GUI") ∧
  (platform ≠ "win32" → base platform = VNone).
Proof.
  unfold base. split.
  - by intros ->.
  - intros Hne. by apply String.eqb_neq in Hne as ->.
Qed.

Lemma base_selects_subsystem_witness :
  base "win32" = VStr "Win32GUI" ∧
  base "linux" = VNone ∧ base "Win32" = VNone ∧ base "" = VNone.
Proof.
  split; [|split; [|split]].
  - apply (proj1 (base_selects_subsystem "win32")). reflexivity.
  - apply (proj2 (base_selects_subsystem "linux")). discriminate.
  - apply (proj2 (base_selects_subsystem "Win32")). discriminate.
  - apply (proj2 (base_selects_subsystem "")). discriminate.
Defined.

(** C4. On every platform and for every non-empty answer of the glob,
    the [packages] list of the build options passed to [setup] is the
    two names ['serial'] and ['tkinter'], whatever the binaries are. *)
Theorem bundled_packages_fixed (w : world)
    (Hmatch : glob_glob w "*.bin" ≠ []) :
  ∃ kwargs packages,
    run w = (Returned (), [Call setup kwargs]) ∧
    passed_packages kwargs = Some packages ∧
    packages = ["serial"; "tkinter"] ∧
    NoDup packages ∧
    (∀ p, p ∈ packages ↔ p = "serial" ∨ p = "tkinter") ∧
    (∀ binaries : list string,
       build_exe_options binaries !! "packages" = Some (str_list packages)).
Proof.
  eexists _, ["serial"; "tkinter"]. split; [by apply run_nonempty|].
  rewrite passed_packages_kwargs. do 2 (split; [done|]).
  split; [by apply (bool_decide_unpack _)|].
  split; [|done].
  intros p. rewrite !elem_of_cons, elem_of_nil. tauto.
Qed.

Lemma bundled_packages_fixed_witness :
  ∃ kwargs packages,
    run one_image_checkout = (Returned (), [Call setup kwargs]) ∧
    passed_packages kwargs = Some packages ∧
    packages = ["serial"; "tkinter"] ∧
    NoDup packages ∧
    (∀ p, p ∈ packages ↔ p = "serial" ∨ p = "tkinter") ∧
    (∀ binaries : list string,
       build_exe_options binaries !! "packages" = Some (str_list packages)).
Proof.
  apply (bundled_packages_fixed one_image_checkout).
  vm_compute; discriminate.
Defined.

(** C5. When the glob for [*.bin] matches exactly [firmware_v1.bin],
    the run returns without raising and the [include_files] entry of the
    build options record is the one-element list
    [['firmware_v1.bin']]. *)
Theorem single_firmware_scenario (w : world)
    (Hmatch : glob_glob w "*.bin" = ["firmware_v1.bin"]) :
  ∃ kwargs build_exe,
    run w = (Returned (), [Call setup kwargs]) ∧
    passed_build_exe kwargs = Some build_exe ∧
    item "include_files" build_exe = Some (VList [VStr "firmware_v1.bin"]) ∧
    passed_include_files kwargs = Some ["firmware_v1.bin"].
Proof.
  assert (glob_glob w "*.bin" ≠ []) as Hne by by rewrite Hmatch.
  eexists _, _. split; [by apply run_nonempty|].
  rewrite passed_build_exe_kwargs, passed_include_files_kwargs, Hmatch.
  done.
Qed.

Lemma single_firmware_scenario_witness :
  glob_glob one_image_checkout "*.bin" = ["firmware_v1.bin"] ∧
  ∃ kwargs build_exe,
    run one_image_checkout = (Returned (), [Call setup kwargs]) ∧
    passed_build_exe kwargs = Some build_exe ∧
    item "include_files" build_exe = Some (VList [VStr "firmware_v1.bin"]) ∧
    passed_include_files kwargs = Some ["firmware_v1.bin"].
Proof.
  split; [reflexivity|].
  apply (single_firmware_scenario one_image_checkout).
  reflexivity.
Defined.

(** C6. The guard on the glob's answer is the only way the descriptor
    fails.  When the answer is not empty the run returns, having selected
    the subsystem, built the three records and called [setup] with them;
    and a run that raises raised ['Could not find binaries'] on an empty
    answer. *)
Theorem guard_is_only_failure (w : world) :
  (glob_glob w "*.bin" ≠ [] →
   run w = (Returned (),
            [Call setup (setup_kwargs (base (sys_platform w))
                                      (glob_glob w "*.bin"))])) ∧
  (∀ e, (run w).1 = Raised e →
   e = Exception "Could not find binaries" ∧ glob_glob w "*.bin" = []).
Proof.
  split; [apply run_nonempty|].
  intros e. destruct (decide (glob_glob w "*.bin" = [])) as [He|Hne].
  - rewrite (run_empty w He). cbn. by intros [= <-].
  - by rewrite (run_nonempty w Hne).
Qed.

Lemma guard_is_only_failure_witness :
  (glob_glob windows_build "*.bin" ≠ [] ∧
   run windows_build
   = (Returned (),
      [Call setup
         (setup_kwargs (VStr "Win32GUI")
            ["com.zubax.gnss-1.0.bin"; "com.zubax.babel-1.1.bin"])])) ∧
  ((run bare_checkout).1 = Raised (Exception "Could not find binaries") ∧
   Exception "Could not find binaries" = Exception "Could not find binaries" ∧
   glob_glob bare_checkout "*.bin" = []).
Proof.
  split; split.
  - vm_compute; discriminate.
  - apply (proj1 (guard_is_only_failure windows_build)).
    vm_compute; discriminate.
  - reflexivity.
  - apply (proj2 (guard_is_only_failure bare_checkout)). reflexivity.
Defined.

(** C7. Whenever the guard is passed, the installer options passed to
    [setup] hold one entry, [initial_target_dir], set to the fixed path
    under the program-files folder, on every platform and for every
    answer of the glob. *)
Theorem installer_target_dir_fixed (w : world)
    (Hmatch : glob_glob w "*.bin" ≠ []) :
  ∃ kwargs bdist_msi,
    run w = (Returned (), [Call setup kwargs]) ∧
    passed_bdist_msi kwargs = Some (VDict bdist_msi) ∧
    dom bdist_msi = {[ "initial_target_dir" ]} ∧
    bdist_msi !! "initial_target_dir"
      = Some (VStr "[ProgramFilesFolder]\Zubax\serial_updater").
Proof.
  eexists _, bdist_msi_options.
  split; [by apply run_nonempty|].
  rewrite passed_bdist_msi_kwargs. split; [done|].
  split; [apply dom_singleton_L | done].
Qed.

Lemma installer_target_dir_fixed_witness :
  ∃ kwargs bdist_msi,
    run windows_build = (Returned (), [Call setup kwargs]) ∧
    passed_bdist_msi kwargs = Some (VDict bdist_msi) ∧
    dom bdist_msi = {[ "initial_target_dir" ]} ∧
    bdist_msi !! "initial_target_dir"
      = Some (VStr "[ProgramFilesFolder]\Zubax\serial_updater").
Proof.
  apply (installer_target_dir_fixed windows_build).
  vm_compute; discriminate.
Defined.

(** C8. The build options record sets [include_msvcr] to [True] for
    every list of binaries; the record does not depend on the platform
    at all, so neither does the flag, and every call of [setup] carries
    it. *)
Theorem include_msvcr_always_true (w : world) (binaries : list string) :
  build_exe_options binaries !! "include_msvcr" = Some (VBool true) ∧
  (∀ kwargs, kwargs ∈ setup_calls (run w).2 →
   ∃ build_exe, passed_build_exe kwargs = Some build_exe ∧
                item "include_msvcr" build_exe = Some (VBool true)).
Proof.
  split; [done|].
  intros kwargs [_ ->]%setup_calls_run.
  eexists. by rewrite passed_build_exe_kwargs.
Qed.

Lemma include_msvcr_always_true_witness :
  setup_kwargs VNone ["firmware_v1.bin"]
    ∈ setup_calls (run one_image_checkout).2 ∧
  ∃ build_exe,
    passed_build_exe (setup_kwargs VNone ["firmware_v1.bin"]) = Some build_exe ∧
    item "include_msvcr" build_exe = Some (VBool true).
Proof.
  split; [apply list_elem_of_here|].
  apply (proj2 (include_msvcr_always_true one_image_checkout [])).
  apply list_elem_of_here.
Defined.

(** C9. Every call of [setup] carries [requires = ['serial']], a list
    of one name; ['tkinter'] is not in it and appears only among the
    [packages] of the build options. *)
Theorem requires_is_serial_only (w : world) (kwargs : gmap string value)
    (Hcall : kwargs ∈ setup_calls (run w).2) :
  kwargs !! "requires" = Some (VList [VStr "serial"]) ∧
  ∃ requires packages,
    passed_requires kwargs = Some requires ∧
    passed_packages kwargs = Some packages ∧
    requires = ["serial"] ∧
    ("tkinter" ∉ requires) ∧ ("tkinter" ∈ packages).
Proof.
  apply setup_calls_run in Hcall as [_ ->].
  split; [done|].
  exists ["serial"], ["serial"; "tkinter"].
  rewrite passed_requires_kwargs, passed_packages_kwargs.
  repeat split.
  - by intros [=]%list_elem_of_singleton.
  - apply list_elem_of_further, list_elem_of_here.
Qed.

Lemma requires_is_serial_only_witness :
  kwargs_sample ∈ setup_calls (run windows_build).2 ∧
  kwargs_sample !! "requires" = Some (VList [VStr "serial"]) ∧
  ∃ requires packages,
    passed_requires kwargs_sample = Some requires ∧
    passed_packages kwargs_sample = Some packages ∧
    requires = ["serial"] ∧
    ("tkinter" ∉ requires) ∧ ("tkinter" ∈ packages).
Proof.
  split; [apply list_elem_of_here|].
  apply (requires_is_serial_only windows_build).
  apply list_elem_of_here.
Defined.

(** C10. Whenever the guard is passed, the [executables] argument of
    [setup] is a list of one [Executable] built from the script
    ['zubax_serial_updater'] with icon ['icon.ico'], shortcut name
    ['Zubax Serial Updater'], shortcut directory ['ProgramMenuFolder'],
    and the subsystem tag selected for the platform as its base. *)
Theorem single_executable_descriptor (w : world)
    (Hmatch : glob_glob w "*.bin" ≠ []) :
  ∃ kwargs options,
    run w = (Returned (), [Call setup kwargs]) ∧
    kwargs !! "executables"
      = Some (VList [VObject "Executable" [VStr "zubax_serial_updater"]
                       options]) ∧
    dom options = {[ "base"; "icon"; "shortcutName"; "shortcutDir" ]} ∧
    options !! "base" = Some (base (sys_platform w)) ∧
    options !! "icon" = Some (VStr "icon.ico") ∧
    options !! "shortcutName" = Some (VStr "Zubax Serial Updater") ∧
    options !! "shortcutDir" = Some (VStr "ProgramMenuFolder").
Proof.
  eexists _, _. split; [by apply run_nonempty|].
  split; [reflexivity|].
  split; [|done].
  rewrite !dom_insert_L, dom_singleton_L. set_solver.
Qed.

Lemma single_executable_descriptor_witness :
  ∃ kwargs options,
    run windows_build = (Returned (), [Call setup kwargs]) ∧
    kwargs !! "executables"
      = Some (VList [VObject "Executable" [VStr "zubax_serial_updater"]
                       options]) ∧
    dom options = {[ "base"; "icon"; "shortcutName"; "shortcutDir" ]} ∧
    options !! "base" = Some (base (sys_platform windows_build)) ∧
    options !! "icon" = Some (VStr "icon.ico") ∧
    options !! "shortcutName" = Some (VStr "Zubax Serial Updater") ∧
    options !! "shortcutDir" = Some (VStr "ProgramMenuFolder").
Proof.
  apply (single_executable_descriptor windows_build).
  vm_compute; discriminate.
Defined.

(** ** Beyond the specification: imports, dependence on the host, metadata *)



Lemma setup_kwargs_off_executables (b1 b2 : value) (binaries : list string) :
  delete "executables" (setup_kwargs b1 binaries)
  = delete "executables" (setup_kwargs b2 binaries).
Proof. reflexivity. Qed.

Lemma setup_kwargs_off_options (b : value) (bs1 bs2 : list string) :
  delete "options" (setup_kwargs b bs1) = delete "options" (setup_kwargs b bs2).
Proof. reflexivity. Qed.

Lemma build_exe_options_off_include_files (bs1 bs2 : list string) :
  delete "include_files" (build_exe_options bs1)
  = delete "include_files" (build_exe_options bs2).
Proof. reflexivity. Qed.

Lemma lookup_of_delete_eq (k k' : string) (m1 m2 : gmap string value) :
  delete k m1 = delete k m2 → k' ≠ k → m1 !! k' = m2 !! k'.
Proof.
  intros Heq Hne.
  rewrite <- (lookup_delete_ne m1 k k'), <- (lookup_delete_ne m2 k k') by done.
  by rewrite Heq.
Qed.

(** X1. A run is determined by [sys.platform] and by the glob's answer
    for [*.bin]: hosts that agree on the two end the same way with the
    same call, whatever else their working directories hold. *)
Theorem run_reads_platform_and_bin_glob_only (w1 w2 : world)
    (Hplatform : sys_platform w1 = sys_platform w2)
    (Hglob : glob_glob w1 "*.bin" = glob_glob w2 "*.bin") :
  run w1 = run w2.
Proof.
  destruct (decide (glob_glob w1 "*.bin" = [])) as [He|Hne].
  - rewrite (run_empty w1 He), (run_empty w2); [done|]. by rewrite <- Hglob.
  - rewrite (run_nonempty w1 Hne), (run_nonempty w2) by by rewrite <- Hglob.
    by rewrite Hplatform, Hglob.
Qed.

Lemma run_reads_platform_and_bin_glob_only_witness :
  (glob_glob windows_build "icon.ico" ≠ glob_glob windows_build_busy "icon.ico") ∧
  run windows_build = run windows_build_busy.
Proof.
  split; [vm_compute; discriminate|].
  apply (run_reads_platform_and_bin_glob_only windows_build windows_build_busy).
  - reflexivity.
  - reflexivity.
Defined.

(** X2. The platform decides neither whether the run fails nor anything
    passed to [setup] outside [executables]: two hosts with the same
    glob answer for [*.bin] end alike, make equally many calls, and their
    calls agree on every keyword other than [executables]. *)
Theorem platform_only_changes_executables (w1 w2 : world)
    (Hglob : glob_glob w1 "*.bin" = glob_glob w2 "*.bin") :
  (run w1).1 = (run w2).1 ∧
  length (run w1).2 = length (run w2).2 ∧
  ∀ kwargs1 kwargs2,
    kwargs1 ∈ setup_calls (run w1).2 →
    kwargs2 ∈ setup_calls (run w2).2 →
    ∀ k, k ≠ "executables" → kwargs1 !! k = kwargs2 !! k.
Proof.
  split; [|split].
  - destruct (decide (glob_glob w1 "*.bin" = [])) as [He|Hne].
    + rewrite (run_empty w1 He), (run_empty w2); [done|]. by rewrite <- Hglob.
    + by rewrite (run_nonempty w1 Hne), (run_nonempty w2) by by rewrite <- Hglob.
  - destruct (decide (glob_glob w1 "*.bin" = [])) as [He|Hne].
    + rewrite (run_empty w1 He), (run_empty w2); [done|]. by rewrite <- Hglob.
    + by rewrite (run_nonempty w1 Hne), (run_nonempty w2) by by rewrite <- Hglob.
  - intros kwargs1 kwargs2 [_ ->]%setup_calls_run [_ ->]%setup_calls_run k Hk.
    rewrite Hglob.
    apply (lookup_of_delete_eq "executables");
      [apply setup_kwargs_off_executables | done].
Qed.

Lemma platform_only_changes_executables_witness :
  (sys_platform windows_build ≠ sys_platform linux_build) ∧
  (run windows_build).1 = (run linux_build).1 ∧
  length (run windows_build).2 = length (run linux_build).2 ∧
  ∀ kwargs1 kwargs2,
    kwargs1 ∈ setup_calls (run windows_build).2 →
    kwargs2 ∈ setup_calls (run linux_build).2 →
    ∀ k, k ≠ "executables" → kwargs1 !! k = kwargs2 !! k.
Proof.
  split; [vm_compute; discriminate|].
  apply (platform_only_changes_executables windows_build linux_build).
  reflexivity.
Defined.

(** X3. The binaries found change nothing but [include_files]: on one
    platform, the calls of two runs agree on every keyword other than
    [options], carry the same installer options, and their build options
    agree on every key other than [include_files]. *)
Theorem binaries_only_change_include_files (w1 w2 : world)
    (kwargs1 kwargs2 : gmap string value)
    (Hplatform : sys_platform w1 = sys_platform w2)
    (Hcall1 : kwargs1 ∈ setup_calls (run w1).2)
    (Hcall2 : kwargs2 ∈ setup_calls (run w2).2) :
  (∀ k, k ≠ "options" → kwargs1 !! k = kwargs2 !! k) ∧
  passed_bdist_msi kwargs1 = passed_bdist_msi kwargs2 ∧
  ∃ build_exe1 build_exe2,
    passed_build_exe kwargs1 = Some (VDict build_exe1) ∧
    passed_build_exe kwargs2 = Some (VDict build_exe2) ∧
    ∀ k, k ≠ "include_files" → build_exe1 !! k = build_exe2 !! k.
Proof.
  apply setup_calls_run in Hcall1 as [_ ->].
  apply setup_calls_run in Hcall2 as [_ ->].
  rewrite Hplatform. split; [|split].
  - intros k Hk.
    apply (lookup_of_delete_eq "options");
      [apply setup_kwargs_off_options | done].
  - by rewrite !passed_bdist_msi_kwargs.
  - eexists _, _. rewrite !passed_build_exe_kwargs.
    split; [done|]. split; [done|]. intros k Hk.
    apply (lookup_of_delete_eq "include_files");
      [apply build_exe_options_off_include_files | done].
Qed.

Lemma binaries_only_change_include_files_witness :
  (glob_glob one_image_checkout "*.bin" ≠ glob_glob linux_build "*.bin") ∧
  (∀ k, k ≠ "options" →
        setup_kwargs VNone ["firmware_v1.bin"] !! k
        = setup_kwargs VNone
            ["com.zubax.gnss-1.0.bin"; "com.zubax.babel-1.1.bin"] !! k) ∧
  passed_bdist_msi (setup_kwargs VNone ["firmware_v1.bin"])
  = passed_bdist_msi
      (setup_kwargs VNone
         ["com.zubax.gnss-1.0.bin"; "com.zubax.babel-1.1.bin"]) ∧
  ∃ build_exe1 build_exe2,
    passed_build_exe (setup_kwargs VNone ["firmware_v1.bin"])
    = Some (VDict build_exe1) ∧
    passed_build_exe
      (setup_kwargs VNone
         ["com.zubax.gnss-1.0.bin"; "com.zubax.babel-1.1.bin"])
    = Some (VDict build_exe2) ∧
    ∀ k, k ≠ "include_files" → build_exe1 !! k = build_exe2 !! k.
Proof.
  split; [vm_compute; discriminate|].
  apply (binaries_only_change_include_files one_image_checkout linux_build).
  - reflexivity.
  - apply list_elem_of_here.
  - apply list_elem_of_here.
Defined.



(** X5. Every call of [setup] carries the same package metadata, on
    every platform and for every list of binaries: name, version,
    description, author, author e-mail, URL and licence; the package is
    named after the script the executable is built from. *)
Theorem metadata_fixed (w : world) (kwargs : gmap string value)
    (Hcall : kwargs ∈ setup_calls (run w).2) :
  kwargs !! "name" = Some (VStr "zubax_serial_updater") ∧
  kwargs !! "version" = Some (VStr "1.0") ∧
  kwargs !! "description" = Some (VStr "Zubax serial firmware updater") ∧
  kwargs !! "author" = Some (VStr "Pavel Kirienko") ∧
  kwargs !! "author_email" = Some (VStr "pavel.kirienko@zubax.com") ∧
  kwargs !! "url" = Some (VStr "http://zubax.com") ∧
  kwargs !! "license" = Some (VStr "MIT") ∧
  ∃ name options,
    kwargs !! "name" = Some name ∧
    kwargs !! "executables" = Some (VList [Executable name options]).
Proof.
  apply setup_calls_run in Hcall as [_ ->].
  repeat (split; [reflexivity|]). by eexists _, _.
Qed.

Lemma metadata_fixed_witness :
  kwargs_sample ∈ setup_calls (run windows_build).2 ∧
  kwargs_sample !! "name" = Some (VStr "zubax_serial_updater") ∧
  kwargs_sample !! "version" = Some (VStr "1.0") ∧
  kwargs_sample !! "description" = Some (VStr "Zubax serial firmware updater") ∧
  kwargs_sample !! "author" = Some (VStr "Pavel Kirienko") ∧
  kwargs_sample !! "author_email" = Some (VStr "pavel.kirienko@zubax.com") ∧
  kwargs_sample !! "url" = Some (VStr "http://zubax.com") ∧
  kwargs_sample !! "license" = Some (VStr "MIT") ∧
  ∃ name options,
    kwargs_sample !! "name" = Some name ∧
    kwargs_sample !! "executables" = Some (VList [Executable name options]).
Proof.
  split; [apply list_elem_of_here|].
  apply (metadata_fixed windows_build). apply list_elem_of_here.
Defined.

(** X6. A call of [setup] passes exactly ten keywords; its [options]
    configure exactly the two commands [build_exe] and [bdist_msi], and
    the build options have exactly the keys [packages], [include_msvcr]
    and [include_files].  Nothing else is ever passed. *)
Theorem setup_keywords_closed (w : world) (kwargs : gmap string value)
    (Hcall : kwargs ∈ setup_calls (run w).2) :
  dom kwargs = {[ "name"; "version"; "description"; "requires"; "author";
                  "author_email"; "url"; "license"; "options";
                  "executables" ]} ∧
  ∃ options build_exe,
    kwargs !! "options" = Some (VDict options) ∧
    dom options = {[ "build_exe"; "bdist_msi" ]} ∧
    options !! "build_exe" = Some (VDict build_exe) ∧
    dom build_exe = {[ "packages"; "include_msvcr"; "include_files" ]}.
Proof.
  apply setup_calls_run in Hcall as [_ ->].
  split; [reflexivity|].
  eexists _, _. split; [reflexivity|]. split; [reflexivity|].
  split; [reflexivity|]. apply build_exe_options_keys.
Qed.

Lemma setup_keywords_closed_witness :
  kwargs_sample ∈ setup_calls (run windows_build).2 ∧
  dom kwargs_sample
  = {[ "name"; "version"; "description"; "requires"; "author";
       "author_email"; "url"; "license"; "options"; "executables" ]} ∧
  ∃ options build_exe,
    kwargs_sample !! "options" = Some (VDict options) ∧
    dom options = {[ "build_exe"; "bdist_msi" ]} ∧
    options !! "build_exe" = Some (VDict build_exe) ∧
    dom build_exe = {[ "packages"; "include_msvcr"; "include_files" ]}.
Proof.
  split; [apply list_elem_of_here|].
  apply (setup_keywords_closed windows_build). apply list_elem_of_here.
Defined.
